(** * SSHFactory: the SSH server factory of twisted.conch

    A shallow embedding of [twisted/conch/ssh/factory.py] and the properties
    of its start-up check, capability filtering, modulus selection and
    service routing.

    Python objects are modelled as follows.
    - A [dict] is an association list whose list order is the dict's
      enumeration order ([keys()] lists it front to back).
    - An instance attribute that may be missing ([hasattr]) is an [attr]:
      [Unset] when absent, [Attr v] when bound to [v].
    - A value that may be [None] is a [maybe]: [PyNone] or [PyObj d].
    - A method body is a computation in a state-and-exception monad over the
      factory instance; a raised exception leaves the mutations done so far
      in place, as in Python. *)

From Stdlib Require Import ZArith List String Bool Lia Sorted.
Import ListNotations.
Local Open Scope string_scope.

(** ** Fragments of the Python runtime used by the factory *)
Module Py.

(** The key carried by a [KeyError]. *)
Inductive key : Type :=
| KStr (s : string)
| KInt (n : Z).

Inductive exn : Type :=
| NotImplementedError (msg : string)
| AttributeError (name : string)
| KeyError (k : key)
| IndexError (msg : string)
| ConchError (msg : string)      (* twisted.conch.error.ConchError *)
| OtherError (msg : string).     (* anything an overriding method raises *)

Inductive result (A : Type) : Type :=
| Ret (a : A)
| Raise (e : exn).
Arguments Ret {A} a.
Arguments Raise {A} e.

Definition is_ret {A} (r : result A) : bool :=
  match r with Ret _ => true | Raise _ => false end.

(** Attribute slots and nullable values. *)
Inductive attr (A : Type) : Type :=
| Unset
| Attr (v : A).
Arguments Unset {A}.
Arguments Attr {A} v.

Inductive maybe (A : Type) : Type :=
| PyNone
| PyObj (a : A).
Arguments PyNone {A}.
Arguments PyObj {A} a.

(** Hashable key types of the dicts in this module. *)
Class DictKey (K : Type) : Type := {
  keqb : K -> K -> bool;
  keqb_eq : forall x y, keqb x y = true <-> x = y;
  as_key : K -> key
}.

#[export] Instance string_DictKey : DictKey string :=
  {| keqb := String.eqb; keqb_eq := String.eqb_eq; as_key := KStr |}.

#[export] Instance Z_DictKey : DictKey Z :=
  {| keqb := Z.eqb; keqb_eq := Z.eqb_eq; as_key := KInt |}.

Definition dict (K V : Type) : Type := list (K * V).

Section Dict.
Context {K V : Type} `{DictKey K}.

(** [d.keys()] *)
Definition keys (d : dict K V) : list K := map fst d.

(** [d[k]] *)
Definition getitem (d : dict K V) (k : K) : result V :=
  match find (fun kv => keqb (fst kv) k) d with
  | Some kv => Ret (snd kv)
  | None => Raise (KeyError (as_key k))
  end.

(** [bool(d)] *)
Definition dict_truth (d : dict K V) : bool :=
  match d with [] => false | _ :: _ => true end.
End Dict.

(** [bool(v)] for a value that is [None] or a dict. *)
Definition truth {K V} (v : maybe (dict K V)) : bool :=
  match v with PyNone => false | PyObj d => dict_truth d end.

(** [l[0]] *)
Definition item0 {A} (l : list A) : result A :=
  match l with
  | [] => Raise (IndexError "list index out of range")
  | x :: _ => Ret x
  end.

(** [twisted.python.compat.cmp] on integers. *)
Definition cmp (a b : Z) : Z :=
  if (a <? b)%Z then (-1)%Z else if (a =? b)%Z then 0%Z else 1%Z.

(** [functools.cmp_to_key]: the only comparison [list.sort] performs on the
    key objects is [<], which is [mycmp(x, y) < 0]. *)
Definition cmp_to_key {A} (mycmp : A -> A -> Z) (x y : A) : bool :=
  (mycmp x y <? 0)%Z.

(** [list.sort]: guaranteed stable, and comparing with [<] only.  What a
    stable sort returns is fixed by its input, so the model is the
    plainest one: each element, taken left to right, goes in front of the
    first element of the sorted prefix that it is strictly less than. *)
Fixpoint insort {A} (lt : A -> A -> bool) (pivot : A) (sorted : list A)
  : list A :=
  match sorted with
  | [] => [pivot]
  | e :: rest =>
      if lt pivot e then pivot :: e :: rest
      else e :: insort lt pivot rest
  end.

Definition sort {A} (lt : A -> A -> bool) (l : list A) : list A :=
  fold_left (fun sorted pivot => insort lt pivot sorted) l [].

(** [random.choice(seq)]: [seq[randbelow(len(seq))]], where [randbelow] is
    the draw of the random source. *)
Definition choice {A} (randbelow : nat -> nat) (seq : list A) : result A :=
  match seq with
  | [] => Raise (IndexError "Cannot choose from an empty sequence")
  | _ :: _ =>
      match nth_error seq (randbelow (List.length seq)) with
      | Some x => Ret x
      | None => Raise (IndexError "list index out of range")
      end
  end.

(** The contract of the random source: a draw below [n] for positive [n]. *)
Definition randbelow_ok (randbelow : nat -> nat) : Prop :=
  forall n, 0 < n -> randbelow n < n.

End Py.
Import Py.

(** ** The factory instance and its collaborators *)

(** A private host key object ([twisted.conch.ssh.keys.Key]); opaque here. *)
Inductive Key : Type := MkKey (blob : string).

(** Service classes a factory can hand out. *)
Inductive ServiceClass : Type :=
| SSHUserAuthServer
| SSHConnection
| CustomService (name : string).

(** A (generator, prime) pair. *)
Definition DHGroup : Type := (Z * Z)%type.

Definition PublicKeys : Type := maybe (dict string string).
Definition PrivateKeys : Type := maybe (dict string Key).
Definition Primes : Type := maybe (dict Z (list DHGroup)).

(** Observable effects of the factory's methods. *)
Inductive Event : Type :=
| CallGetPublicKeys
| CallGetPrivateKeys
| CallGetPrimes
| LogMsg (msg : string).

(** The attributes of an [SSHFactory] instance together with the history of
    effects performed on its behalf (most recent last). *)
Record SSHFactory : Type := mkSSHFactory {
  publicKeys : attr PublicKeys;
  privateKeys : attr PrivateKeys;
  primes : attr Primes;
  services : dict string ServiceClass;
  trace : list Event
}.

(** The class attribute [services]. *)
Definition default_services : dict string ServiceClass :=
  [("ssh-userauth", SSHUserAuthServer); ("ssh-connection", SSHConnection)].

(** A freshly constructed factory: no instance attribute bound yet. *)
Definition new_factory : SSHFactory :=
  {| publicKeys := Unset; privateKeys := Unset; primes := Unset;
     services := default_services; trace := [] |}.

(** The overridable loader methods, as the outcome of calling each. *)
Record Loaders : Type := mkLoaders {
  getPublicKeys : result PublicKeys;
  getPrivateKeys : result PrivateKeys;
  getPrimes : result Primes
}.

(** The loaders as [SSHFactory] itself defines them: the two key loaders
    raise, the body of [getPrimes] is only a docstring and so returns
    [None]. *)
Definition base_loaders : Loaders :=
  {| getPublicKeys := Raise (NotImplementedError "getPublicKeys unimplemented");
     getPrivateKeys := Raise (NotImplementedError "getPrivateKeys unimplemented");
     getPrimes := Ret PyNone |}.

(** The transport instance a factory configures. *)
Record SSHServerTransport : Type := mkTransport {
  supportedPublicKeys : list string;
  supportedKeyExchanges : list string;
  avatar : attr string
}.

(** ** The method monad: state of the instance plus exceptions *)
Definition M (A : Type) : Type := SSHFactory -> result A * SSHFactory.

Definition ret {A} (a : A) : M A := fun s => (Ret a, s).

Definition raise {A} (e : exn) : M A := fun s => (Raise e, s).

Definition bind {A B} (m : M A) (k : A -> M B) : M B :=
  fun s =>
    match m s with
    | (Ret a, s') => k a s'
    | (Raise e, s') => (Raise e, s')
    end.

Declare Scope method_scope.
Delimit Scope method_scope with method.
Notation "x <- m ;; k" := (bind m (fun x => k))
  (at level 61, m at next level, right associativity) : method_scope.
Notation "m ;; k" := (bind m (fun _ => k))
  (at level 61, right associativity) : method_scope.
Local Open Scope method_scope.

(** [hasattr(self, name)] and [self.name] *)
Definition hasattr {A} (slot : SSHFactory -> attr A) : M bool :=
  fun s => (Ret (match slot s with Unset => false | Attr _ => true end), s).

Definition getattr {A} (name : string) (slot : SSHFactory -> attr A) : M A :=
  fun s =>
    match slot s with
    | Attr v => (Ret v, s)
    | Unset => (Raise (AttributeError name), s)
    end.

(** [self.name = v] *)
Definition set_publicKeys (v : PublicKeys) : M unit :=
  fun s => (Ret tt,
            {| publicKeys := Attr v; privateKeys := privateKeys s;
               primes := primes s; services := services s;
               trace := trace s |}).

Definition set_privateKeys (v : PrivateKeys) : M unit :=
  fun s => (Ret tt,
            {| publicKeys := publicKeys s; privateKeys := Attr v;
               primes := primes s; services := services s;
               trace := trace s |}).

Definition set_primes (v : Primes) : M unit :=
  fun s => (Ret tt,
            {| publicKeys := publicKeys s; privateKeys := privateKeys s;
               primes := Attr v; services := services s;
               trace := trace s |}).

(** Recording an effect, and calling a loader (which records the call). *)
Definition emit (ev : Event) : M unit :=
  fun s => (Ret tt,
            {| publicKeys := publicKeys s; privateKeys := privateKeys s;
               primes := primes s; services := services s;
               trace := trace s ++ [ev] |}).

Definition call {A} (ev : Event) (outcome : result A) : M A :=
  fun s => let (_, s') := emit ev s in (outcome, s').

(** ** SSHFactory.startFactory *)
Definition startFactory (L : Loaders) : M unit :=
  has_pub <- hasattr publicKeys ;;
  (if negb has_pub
   then v <- call CallGetPublicKeys (getPublicKeys L) ;; set_publicKeys v
   else ret tt) ;;
  has_priv <- hasattr privateKeys ;;
  (if negb has_priv
   then v <- call CallGetPrivateKeys (getPrivateKeys L) ;; set_privateKeys v
   else ret tt) ;;
  pub <- getattr "publicKeys" publicKeys ;;
  no_keys <- (if negb (truth pub) then ret true
              else priv <- getattr "privateKeys" privateKeys ;;
                   ret (negb (truth priv))) ;;
  if no_keys : bool
  then raise (ConchError "no host keys, failing")
  else
    has_primes <- hasattr primes ;;
    if negb has_primes
    then v <- call CallGetPrimes (getPrimes L) ;; set_primes v
    else ret tt.

(** Lifting a pure outcome, and calling a method on a nullable dict. *)
Definition lift {A} (r : result A) : M A := fun s => (r, s).

Definition as_dict {K V} (method : string) (v : maybe (dict K V))
  : M (dict K V) :=
  match v with
  | PyObj d => ret d
  | PyNone => raise (AttributeError method)
  end.

(** The notice [buildProtocol] logs when it finds no moduli. *)
Definition moduli_notice : Event :=
  LogMsg "disabling non-fixed-group key exchange algorithms because we cannot find moduli file".

Section Collaborators.

(** [_kex.isFixedGroup], from [twisted/conch/ssh/_kex.py]: the
    classification of a key-exchange algorithm name. *)
Variable isFixedGroup : string -> bool.

(** [protocol.Factory.buildProtocol], the inherited constructor of a fresh
    transport for a peer address. *)
Variable Factory_buildProtocol : string -> SSHServerTransport.

(** ** SSHFactory.buildProtocol *)
Definition buildProtocol (addr : string) : M SSHServerTransport :=
  let t := Factory_buildProtocol addr in
  priv <- getattr "privateKeys" privateKeys ;;
  priv_dict <- as_dict "keys" priv ;;
  let t := {| supportedPublicKeys := keys priv_dict;
              supportedKeyExchanges := supportedKeyExchanges t;
              avatar := avatar t |} in
  p <- getattr "primes" primes ;;
  if negb (truth p)
  then
    emit moduli_notice ;;
    ret {| supportedPublicKeys := supportedPublicKeys t;
           supportedKeyExchanges :=
             filter isFixedGroup (supportedKeyExchanges t);
           avatar := avatar t |}
  else ret t.

End Collaborators.

(** ** SSHFactory.getDHPrime *)

(** The comparison handed to [cmp_to_key]: distance to [bits]. *)
Definition closer (bits x y : Z) : Z :=
  cmp (Z.abs (x - bits)) (Z.abs (y - bits)).

Definition getDHPrime (randbelow : nat -> nat) (bits : Z) : M DHGroup :=
  p <- getattr "primes" primes ;;
  d <- as_dict "keys" p ;;
  let primesKeys := keys d in
  let primesKeys := sort (cmp_to_key (closer bits)) primesKeys in
  realBits <- lift (item0 primesKeys) ;;
  groups <- lift (getitem d realBits) ;;
  lift (choice randbelow groups).

(** ** SSHFactory.getService *)

(** [hasattr(transport, 'avatar')] *)
Definition has_avatar (transport : SSHServerTransport) : bool :=
  match avatar transport with Unset => false | Attr _ => true end.

Definition getService (transport : SSHServerTransport) (service : string)
  : M (maybe ServiceClass) :=
  if (service =? "ssh-userauth") || has_avatar transport
  then
    table <- (fun s => (Ret (services s), s)) ;;
    cls <- lift (getitem table service) ;;
    ret (PyObj cls)
  else ret PyNone.

(** ** Sample data *)
Module Sample.

(** A classification in the shape of [_kex]'s table: the two
    group-exchange algorithms negotiate their group, the rest are fixed. *)
Definition isFixedGroup (name : string) : bool :=
  negb ((name =? "diffie-hellman-group-exchange-sha1")
        || (name =? "diffie-hellman-group-exchange-sha256")).

Definition default_kex : list string :=
  ["diffie-hellman-group-exchange-sha256";
   "diffie-hellman-group-exchange-sha1";
   "diffie-hellman-group14-sha1";
   "diffie-hellman-group1-sha1"].

Definition fresh_transport (addr : string) : SSHServerTransport :=
  {| supportedPublicKeys := ["ssh-rsa"; "ssh-dss"];
     supportedKeyExchanges := default_kex;
     avatar := Unset |}.

Definition ed25519_pub : dict string string := [("ssh-ed25519", "AAAAC3Nz")].
Definition ed25519_priv : dict string Key :=
  [("ssh-ed25519", MkKey "ed25519-private")].

Definition moduli : dict Z (list DHGroup) :=
  [(1024, [(2, 1019); (5, 1021)]); (3072, [(2, 3067)]);
   (2048, [(2, 2039)])]%Z.

Definition loaders (p : Primes) : Loaders :=
  {| getPublicKeys := Ret (PyObj ed25519_pub);
     getPrivateKeys := Ret (PyObj ed25519_priv);
     getPrimes := Ret p |}.

End Sample.

(** ** Sample instances *)

(** A factory seeded before start-up, with loaders that would all fail or
    return nothing if they were called. *)
Definition seeded_factory : SSHFactory :=
  {| publicKeys := Attr (PyObj Sample.ed25519_pub);
     privateKeys := Attr (PyObj Sample.ed25519_priv);
     primes := Attr (PyObj Sample.moduli);
     services := default_services;
     trace := [] |}.

(** An empty private-key mapping next to a populated public one. *)
Definition half_keyed_loaders : Loaders :=
  {| getPublicKeys := Ret (PyObj Sample.ed25519_pub);
     getPrivateKeys := Ret (PyObj []);
     getPrimes := Ret (PyObj Sample.moduli) |}.

(** Host keys whose public and private mappings name different key types. *)
Definition mismatched_loaders : Loaders :=
  {| getPublicKeys := Ret (PyObj [("ssh-rsa", "AAAAB3Nz")]);
     getPrivateKeys := Ret (PyObj Sample.ed25519_priv);
     getPrimes := Ret PyNone |}.

(** A repository in which 3072 is enumerated before 1024, both at distance
    1024 from the target 2048. *)
Definition tied_factory : SSHFactory :=
  {| publicKeys := Attr (PyObj Sample.ed25519_pub);
     privateKeys := Attr (PyObj Sample.ed25519_priv);
     primes := Attr (PyObj [(3072, [(2, 3067)]);
                            (1024, [(2, 1019); (5, 1021)])]%Z);
     services := default_services;
     trace := [] |}.

Definition authenticated_transport : SSHServerTransport :=
  {| supportedPublicKeys := ["ssh-ed25519"];
     supportedKeyExchanges := Sample.default_kex;
     avatar := Attr "alice" |}.

Definition last_index (n : nat) : nat := n - 1.

(** Loaders of an integrator whose private-key file, or whose moduli file,
    cannot be read. *)
Definition unreadable_private_loaders : Loaders :=
  {| getPublicKeys := Ret (PyObj Sample.ed25519_pub);
     getPrivateKeys := Raise (OtherError "IOError: ssh_host_ed25519_key");
     getPrimes := Ret PyNone |}.

Definition unreadable_moduli_loaders : Loaders :=
  {| getPublicKeys := Ret (PyObj Sample.ed25519_pub);
     getPrivateKeys := Ret (PyObj Sample.ed25519_priv);
     getPrimes := Raise (OtherError "IOError: moduli") |}.

(** A transport class that supports fixed-group exchanges only. *)
Definition fixed_only_transport (addr : string) : SSHServerTransport :=
  {| supportedPublicKeys := [];
     supportedKeyExchanges :=
       ["diffie-hellman-group14-sha1"; "diffie-hellman-group1-sha1"];
     avatar := Unset |}.

(** A factory whose only bit length has lost its groups. *)
Definition hollow_factory : SSHFactory :=
  {| publicKeys := Attr (PyObj Sample.ed25519_pub);
     privateKeys := Attr (PyObj Sample.ed25519_priv);
     primes := Attr (PyObj [(2048%Z, [])]);
     services := default_services;
     trace := [] |}.

(** ** Vocabulary of the statements *)

(** The value a slot holds once the skip-if-set load has run: the value
    already bound, else the loader's outcome. *)
Definition loaded {A} (slot : attr A) (loader : result A) : result A :=
  match slot with
  | Attr v => Ret v
  | Unset => loader
  end.

(** The loader call a slot causes: one when it is unset, none otherwise. *)
Definition load_event {A} (slot : attr A) (ev : Event) : list Event :=
  match slot with
  | Unset => [ev]
  | Attr _ => []
  end.

Definition no_host_keys : exn := ConchError "no host keys, failing".

(** Order-preserving subsequences, to say what the list comprehension of
    [buildProtocol] selects. *)
Inductive Subseq {A : Type} : list A -> list A -> Prop :=
| Subseq_nil : Subseq [] []
| Subseq_skip x l1 l2 : Subseq l1 l2 -> Subseq l1 (x :: l2)
| Subseq_keep x l1 l2 : Subseq l1 l2 -> Subseq (x :: l1) (x :: l2).

(** [r] is the subsequence of [l] made of its elements that satisfy [f]:
    an order-preserving subsequence, all of whose elements satisfy [f], and
    which contains every other such subsequence. *)
Definition selects {A : Type} (f : A -> bool) (l r : list A) : Prop :=
  Subseq r l /\
  Forall (fun x => f x = true) r /\
  forall r', Subseq r' l -> Forall (fun x => f x = true) r' -> Subseq r' r.

(** The entry [(b, groups)] of the repository [d] is the nearest to [bits],
    and the first such in enumeration order: every entry before it is
    strictly farther from [bits], every entry after it at least as far. *)
Definition nearest_first (bits : Z) (d : dict Z (list DHGroup))
           (b : Z) (groups : list DHGroup) : Prop :=
  exists pre post,
    d = (pre ++ (b, groups) :: post)%list /\
    Forall (fun kv => (Z.abs (b - bits) < Z.abs (fst kv - bits))%Z) pre /\
    Forall (fun kv => (Z.abs (b - bits) <= Z.abs (fst kv - bits))%Z) post.

(** The data-model invariant of a repository: no bit length without a
    group. *)
Definition every_length_has_a_group (d : dict Z (list DHGroup)) : Prop :=
  Forall (fun kv => snd kv <> []) d.

Definition raises_unimplemented {A : Type} (r : result A) : Prop :=
  exists msg, r = Raise (NotImplementedError msg).

(** * Properties *)

(** ** Running method bodies *)

Ltac run :=
  unfold startFactory, buildProtocol, getDHPrime, getService, bind, ret,
    raise, hasattr, getattr, call, emit, set_publicKeys, set_privateKeys,
    set_primes, lift, as_dict in *;
  simpl in *.

Lemma truth_true_inv {K V} (v : maybe (dict K V)) :
  truth v = true -> exists kv d, v = PyObj (kv :: d).
Proof.
  destruct v as [|[|kv d]]; simpl; try discriminate.
  intros _. now exists kv, d.
Qed.

(** A start that passes the host-key check, in closed form. *)
Lemma startFactory_ok (L : Loaders) (s : SSHFactory) pub priv p :
  loaded (publicKeys s) (getPublicKeys L) = Ret pub ->
  loaded (privateKeys s) (getPrivateKeys L) = Ret priv ->
  truth pub = true ->
  truth priv = true ->
  loaded (primes s) (getPrimes L) = Ret p ->
  startFactory L s =
    (Ret tt,
     {| publicKeys := Attr pub; privateKeys := Attr priv; primes := Attr p;
        services := services s;
        trace := trace s ++ load_event (publicKeys s) CallGetPublicKeys
                         ++ load_event (privateKeys s) CallGetPrivateKeys
                         ++ load_event (primes s) CallGetPrimes |}).
Proof.
  intros Hpub Hpriv Tpub Tpriv Hp.
  destruct s as [pk vk pr sv tr].
  destruct pk, vk, pr; simpl in Hpub, Hpriv, Hp; run;
    rewrite ?Hpub, ?Hpriv, ?Hp; simpl;
    try (injection Hpub as ->); try (injection Hpriv as ->);
    try (injection Hp as ->);
    rewrite ?Tpub; simpl; rewrite ?Tpriv; simpl; rewrite ?Hp; simpl;
    rewrite <- ?app_assoc; simpl; rewrite ?app_nil_r; reflexivity.
Qed.

(** A start that fails the host-key check, in closed form: the exception,
    and a state in which the key slots are bound and [primes] is as it
    was. *)
Lemma startFactory_no_keys (L : Loaders) (s : SSHFactory) pub priv :
  loaded (publicKeys s) (getPublicKeys L) = Ret pub ->
  loaded (privateKeys s) (getPrivateKeys L) = Ret priv ->
  truth pub && truth priv = false ->
  startFactory L s =
    (Raise (ConchError "no host keys, failing"),
     {| publicKeys := Attr pub; privateKeys := Attr priv; primes := primes s;
        services := services s;
        trace := trace s ++ load_event (publicKeys s) CallGetPublicKeys
                         ++ load_event (privateKeys s) CallGetPrivateKeys |}).
Proof.
  intros Hpub Hpriv T.
  destruct s as [pk vk pr sv tr].
  destruct pk, vk; simpl in Hpub, Hpriv; run;
    rewrite ?Hpub, ?Hpriv; simpl;
    try (injection Hpub as ->); try (injection Hpriv as ->);
    destruct (truth pub); simpl in *; rewrite ?T; simpl;
    rewrite <- ?app_assoc; simpl; rewrite ?app_nil_r; reflexivity.
Qed.

(** What a successful start leaves behind. *)
Lemma startFactory_started (L : Loaders) (s s' : SSHFactory) :
  startFactory L s = (Ret tt, s') ->
  exists pub priv p,
    loaded (publicKeys s) (getPublicKeys L) = Ret pub /\
    loaded (privateKeys s) (getPrivateKeys L) = Ret priv /\
    loaded (primes s) (getPrimes L) = Ret p /\
    truth pub = true /\ truth priv = true /\
    publicKeys s' = Attr pub /\ privateKeys s' = Attr priv /\
    primes s' = Attr p /\ services s' = services s.
Proof.
  intros Hrun.
  destruct (loaded (publicKeys s) (getPublicKeys L)) as [pub|e1] eqn:Hpub.
  2:{ exfalso. destruct s as [pk vk pr sv tr]. destruct pk; simpl in Hpub;
      [|discriminate]. run. rewrite Hpub in Hrun. discriminate. }
  destruct (loaded (privateKeys s) (getPrivateKeys L)) as [priv|e2] eqn:Hpriv.
  2:{ exfalso. destruct s as [pk vk pr sv tr].
      destruct vk; simpl in Hpriv; [|discriminate].
      destruct pk; simpl in Hpub; run; rewrite ?Hpub, Hpriv in Hrun;
        discriminate. }
  destruct (truth pub && truth priv) eqn:T.
  2:{ rewrite (startFactory_no_keys L s pub priv Hpub Hpriv T) in Hrun.
      discriminate. }
  apply andb_true_iff in T as [Tpub Tpriv].
  destruct (loaded (primes s) (getPrimes L)) as [p|e3] eqn:Hp.
  - rewrite (startFactory_ok L s pub priv p Hpub Hpriv Tpub Tpriv Hp) in Hrun.
    injection Hrun as Hs. subst s'. exists pub, priv, p. simpl.
    repeat split; auto.
  - exfalso. destruct s as [pk vk pr sv tr].
    destruct pr; simpl in Hp; [|discriminate].
    destruct pk, vk; simpl in Hpub, Hpriv; run;
      rewrite ?Hpub, ?Hpriv in Hrun; simpl in Hrun;
      try (injection Hpub as ->); try (injection Hpriv as ->);
      rewrite ?Tpub in Hrun; simpl in Hrun; rewrite ?Tpriv in Hrun;
      simpl in Hrun; rewrite ?Hp in Hrun; discriminate.
Qed.

(** Case analysis on whatever the goal still branches on. *)
Ltac crunch :=
  repeat (cbn;
          match goal with
          | |- context [match ?x with _ => _ end] => is_var x; destruct x
          | |- context [truth ?v] => is_var v; destruct v as [|[|? ?]]
          end);
  cbn.

(** A second start after a successful one changes nothing. *)
Lemma startFactory_again (L : Loaders) (s s' : SSHFactory) :
  startFactory L s = (Ret tt, s') ->
  startFactory L s' = (Ret tt, s').
Proof.
  intros Hrun.
  destruct (startFactory_started L s s' Hrun)
    as (pub & priv & p & _ & _ & _ & Tpub & Tpriv & Epub & Epriv & Ep & _).
  rewrite (startFactory_ok L s' pub priv p);
    try (rewrite ?Epub, ?Epriv, ?Ep; reflexivity); auto.
  rewrite Epub, Epriv, Ep. simpl. rewrite app_nil_r.
  destruct s'; simpl in *. now subst.
Qed.

(** ** C8: start-up skips what is already set *)

(** C8.  [startFactory] leaves pre-populated state alone: a slot among
    [publicKeys], [privateKeys] and [primes] that is bound before the call
    keeps its value and its loader is not called (the events the call
    appends to the trace do not contain that loader's call); and running
    [startFactory] twice in sequence is the same computation as running it
    once. *)
Theorem startFactory_idempotent (L : Loaders) (s : SSHFactory) :
  (exists evs,
      trace (snd (startFactory L s)) = (trace s ++ evs)%list /\
      (forall v, publicKeys s = Attr v ->
                 publicKeys (snd (startFactory L s)) = Attr v /\
                 ~ In CallGetPublicKeys evs) /\
      (forall v, privateKeys s = Attr v ->
                 privateKeys (snd (startFactory L s)) = Attr v /\
                 ~ In CallGetPrivateKeys evs) /\
      (forall v, primes s = Attr v ->
                 primes (snd (startFactory L s)) = Attr v /\
                 ~ In CallGetPrimes evs)) /\
  (startFactory L ;; startFactory L) s = startFactory L s.
Proof.
  split.
  - destruct s as [pk vk pr sv tr], L as [lp lv lq].
    destruct pk, vk, pr; run; crunch;
      rewrite <- ?app_assoc; simpl;
      (eexists; split;
       [ first [ reflexivity | symmetry; apply app_nil_r ]
       | repeat split; intros; try discriminate; try congruence;
         simpl; intuition discriminate ]).
  - unfold bind at 1.
    destruct (startFactory L s) as [[[]|e] s'] eqn:Hrun; [|reflexivity].
    now apply startFactory_again with (s := s).
Qed.

Lemma startFactory_idempotent_witness :
  publicKeys (snd (startFactory base_loaders seeded_factory))
  = Attr (PyObj Sample.ed25519_pub) /\
  (startFactory base_loaders ;; startFactory base_loaders) seeded_factory
  = startFactory base_loaders seeded_factory.
Proof.
  destruct (startFactory_idempotent base_loaders seeded_factory)
    as [(evs & _ & Hpub & _) Htwice].
  split.
  - exact (proj1 (Hpub _ eq_refl)).
  - exact Htwice.
Defined.

(** ** C1: the host-key check *)

(** C1.  Take any factory state and loaders for which obtaining the two key
    mappings succeeds, [pub] and [priv] being the mappings the factory holds
    after loading (pre-set, or returned by the loader).  If both are
    non-empty, [startFactory] returns normally (given that the moduli are
    pre-set or their loader returns).  If either is empty (or [None]),
    [startFactory] raises [ConchError] with the text "no host keys, failing",
    does not go on to load the moduli, and the exception cuts off whatever is
    sequenced after it: no continuation, connection building included, is
    run. *)
Theorem startFactory_host_keys (L : Loaders) (s : SSHFactory) pub priv :
  loaded (publicKeys s) (getPublicKeys L) = Ret pub ->
  loaded (privateKeys s) (getPrivateKeys L) = Ret priv ->
  (truth pub = true -> truth priv = true ->
   is_ret (loaded (primes s) (getPrimes L)) = true ->
   fst (startFactory L s) = Ret tt) /\
  (truth pub && truth priv = false ->
   fst (startFactory L s) = Raise no_host_keys /\
   primes (snd (startFactory L s)) = primes s /\
   (exists evs, trace (snd (startFactory L s)) = (trace s ++ evs)%list /\
                ~ In CallGetPrimes evs) /\
   (forall (A : Type) (k : unit -> M A),
       bind (startFactory L) k s
       = (Raise no_host_keys, snd (startFactory L s)))).
Proof.
  intros Hpub Hpriv. split.
  - intros Tpub Tpriv Hp.
    destruct (loaded (primes s) (getPrimes L)) as [p|e] eqn:Ep;
      [|discriminate].
    now rewrite (startFactory_ok L s pub priv p).
  - intros T. unfold bind.
    rewrite (startFactory_no_keys L s pub priv Hpub Hpriv T). simpl.
    repeat split.
    eexists. split; [reflexivity|].
    rewrite in_app_iff.
    destruct (publicKeys s), (privateKeys s); simpl; intuition discriminate.
Qed.

Lemma startFactory_host_keys_witness :
  fst (startFactory (Sample.loaders PyNone) new_factory) = Ret tt /\
  fst (startFactory half_keyed_loaders new_factory) = Raise no_host_keys /\
  forall addr,
    fst (bind (startFactory half_keyed_loaders)
              (fun _ => buildProtocol Sample.isFixedGroup
                          Sample.fresh_transport addr)
              new_factory)
    = Raise no_host_keys.
Proof.
  split; [|split].
  - apply (proj1 (startFactory_host_keys (Sample.loaders PyNone) new_factory
                    (PyObj Sample.ed25519_pub) (PyObj Sample.ed25519_priv)
                    eq_refl eq_refl));
      reflexivity.
  - apply (proj2 (startFactory_host_keys half_keyed_loaders new_factory
                    (PyObj Sample.ed25519_pub) (PyObj [])
                    eq_refl eq_refl)).
    reflexivity.
  - intros addr.
    destruct (proj2 (startFactory_host_keys half_keyed_loaders new_factory
                       (PyObj Sample.ed25519_pub) (PyObj [])
                       eq_refl eq_refl) eq_refl)
      as (_ & _ & _ & Hcut).
    now rewrite Hcut.
Defined.

(** ** Connection building *)

Lemma filter_selects {A : Type} (f : A -> bool) (l : list A) :
  selects f l (filter f l).
Proof.
  repeat split.
  - induction l as [|x l IH]; simpl; [constructor|].
    destruct (f x); now constructor.
  - apply Forall_forall. intros x Hx. now apply filter_In in Hx.
  - intros r' Hsub. induction Hsub as [|x l1 l2 Hsub IH|x l1 l2 Hsub IH];
      intros Hall; simpl.
    + constructor.
    + destruct (f x); [apply Subseq_skip|]; now apply IH.
    + inversion Hall as [|? ? Hx Hrest]; subst. rewrite Hx.
      apply Subseq_keep. now apply IH.
Qed.

Section Building.

Variable isFixedGroup : string -> bool.
Variable Factory_buildProtocol : string -> SSHServerTransport.

Let build := buildProtocol isFixedGroup Factory_buildProtocol.

(** [buildProtocol] on a factory whose private keys are a dict and whose
    [primes] slot is bound, in closed form. *)
Lemma buildProtocol_run (addr : string) (s : SSHFactory) priv p :
  privateKeys s = Attr (PyObj priv) ->
  primes s = Attr p ->
  build addr s =
    (Ret {| supportedPublicKeys := keys priv;
            supportedKeyExchanges :=
              if truth p
              then supportedKeyExchanges (Factory_buildProtocol addr)
              else filter isFixedGroup
                     (supportedKeyExchanges (Factory_buildProtocol addr));
            avatar := avatar (Factory_buildProtocol addr) |},
     if truth p then s else snd (emit moduli_notice s)).
Proof.
  intros Hpriv Hp. subst build.
  destruct s as [pk vk pr sv tr]. simpl in Hpriv, Hp. subst vk pr.
  run. destruct (truth p); simpl; [|reflexivity].
  now destruct (Factory_buildProtocol addr).
Qed.

(** ** C2: the advertised key exchanges *)

(** C2.  Start a factory whose host keys load as non-empty mappings and
    whose moduli load as the dict [moduli]; then build a transport.  The
    start succeeds whether or not [moduli] is empty.  If [moduli] is
    non-empty the transport advertises the key-exchange list of the fresh
    transport unchanged; if it is empty the transport advertises exactly
    the fixed-group members of that list, in their original order. *)
Theorem buildProtocol_key_exchanges
        (L : Loaders) (s : SSHFactory) (addr : string) pub priv moduli :
  loaded (publicKeys s) (getPublicKeys L) = Ret pub ->
  loaded (privateKeys s) (getPrivateKeys L) = Ret priv ->
  truth pub = true ->
  truth priv = true ->
  loaded (primes s) (getPrimes L) = Ret (PyObj moduli) ->
  let supported := supportedKeyExchanges (Factory_buildProtocol addr) in
  exists s' t,
    startFactory L s = (Ret tt, s') /\
    fst (build addr s') = Ret t /\
    (moduli <> [] -> supportedKeyExchanges t = supported) /\
    (moduli = [] ->
     supportedKeyExchanges t = filter isFixedGroup supported /\
     selects isFixedGroup supported (supportedKeyExchanges t)).
Proof.
  intros Hpub Hpriv Tpub Tpriv Hp supported.
  destruct (truth_true_inv priv Tpriv) as (kv & d & ->).
  eexists. eexists. split.
  - apply (startFactory_ok L s pub _ _ Hpub Hpriv Tpub Tpriv Hp).
  - erewrite buildProtocol_run by reflexivity. simpl.
    split; [reflexivity|]. simpl. split.
    + intros Hne. destruct moduli; [contradiction|reflexivity].
    + intros ->. simpl. split; [reflexivity|apply filter_selects].
Qed.

End Building.

Lemma buildProtocol_key_exchanges_witness :
  (exists s' t,
      startFactory (Sample.loaders (PyObj Sample.moduli)) new_factory
      = (Ret tt, s') /\
      fst (buildProtocol Sample.isFixedGroup Sample.fresh_transport "peer" s')
      = Ret t /\
      supportedKeyExchanges t = Sample.default_kex) /\
  (exists s' t,
      startFactory (Sample.loaders (PyObj [])) new_factory = (Ret tt, s') /\
      fst (buildProtocol Sample.isFixedGroup Sample.fresh_transport "peer" s')
      = Ret t /\
      supportedKeyExchanges t
      = ["diffie-hellman-group14-sha1"; "diffie-hellman-group1-sha1"]).
Proof.
  split.
  - destruct (buildProtocol_key_exchanges
                Sample.isFixedGroup Sample.fresh_transport
                (Sample.loaders (PyObj Sample.moduli)) new_factory "peer"
                (PyObj Sample.ed25519_pub) (PyObj Sample.ed25519_priv)
                Sample.moduli eq_refl eq_refl eq_refl eq_refl eq_refl)
      as (s' & t & Hstart & Hbuild & Hsame & _).
    exists s', t. repeat split; try assumption.
    apply Hsame. discriminate.
  - destruct (buildProtocol_key_exchanges
                Sample.isFixedGroup Sample.fresh_transport
                (Sample.loaders (PyObj [])) new_factory "peer"
                (PyObj Sample.ed25519_pub) (PyObj Sample.ed25519_priv)
                [] eq_refl eq_refl eq_refl eq_refl eq_refl)
      as (s' & t & Hstart & Hbuild & _ & Hfixed).
    exists s', t. repeat split; try assumption.
    now destruct (Hfixed eq_refl) as [-> _].
Defined.

Section Started.

Variable isFixedGroup : string -> bool.
Variable Factory_buildProtocol : string -> SSHServerTransport.

Let build := buildProtocol isFixedGroup Factory_buildProtocol.

(** ** C7: the advertised host-key types *)

(** C7.  After a successful [startFactory] the private keys are a dict,
    and [buildProtocol] for any peer address returns a transport whose
    [supportedPublicKeys] is the key list of that dict (whatever the
    public-key mapping holds); building leaves the three slots as they
    were, so this holds for every transport built afterwards. *)
Theorem buildProtocol_public_keys
        (L : Loaders) (s s' : SSHFactory) (addr : string) :
  startFactory L s = (Ret tt, s') ->
  exists priv t s'',
    privateKeys s' = Attr (PyObj priv) /\
    build addr s' = (Ret t, s'') /\
    supportedPublicKeys t = keys priv /\
    publicKeys s'' = publicKeys s' /\
    privateKeys s'' = privateKeys s' /\
    primes s'' = primes s'.
Proof.
  intros Hrun.
  destruct (startFactory_started L s s' Hrun)
    as (pub & priv & p & _ & _ & _ & _ & Tpriv & _ & Epriv & Ep & _).
  destruct (truth_true_inv priv Tpriv) as (kv & d & ->).
  exists (kv :: d). eexists. eexists. split; [exact Epriv|].
  split; [apply (buildProtocol_run _ _ addr s' _ _ Epriv Ep)|].
  split; [reflexivity|].
  destruct (truth p); simpl; auto.
Qed.

(** ** C10: a missing moduli loader *)

(** C10.  Let the moduli loader be the one [SSHFactory] defines, the
    [primes] slot be unset, and the host keys load as non-empty mappings.
    Then [startFactory] returns normally and binds [primes] to [None];
    [buildProtocol] then succeeds, advertises only the fixed-group key
    exchanges, and returns the very transport it returns when [primes] is
    bound to an empty dict instead. *)
Theorem default_getPrimes_degrades
        (L : Loaders) (s : SSHFactory) (addr : string) pub priv :
  getPrimes L = getPrimes base_loaders ->
  primes s = Unset ->
  loaded (publicKeys s) (getPublicKeys L) = Ret pub ->
  loaded (privateKeys s) (getPrivateKeys L) = Ret priv ->
  truth pub = true ->
  truth priv = true ->
  exists s' t,
    startFactory L s = (Ret tt, s') /\
    primes s' = Attr PyNone /\
    fst (build addr s') = Ret t /\
    supportedKeyExchanges t
    = filter isFixedGroup
        (supportedKeyExchanges (Factory_buildProtocol addr)) /\
    fst (build addr (snd (set_primes (PyObj []) s'))) = Ret t.
Proof.
  intros HL Hunset Hpub Hpriv Tpub Tpriv.
  assert (Hp : loaded (primes s) (getPrimes L) = Ret PyNone)
    by (rewrite Hunset; simpl; now rewrite HL).
  destruct (truth_true_inv priv Tpriv) as (kv & d & ->).
  eexists. eexists. split.
  - apply (startFactory_ok L s pub _ _ Hpub Hpriv Tpub Tpriv Hp).
  - split; [reflexivity|]. subst build.
    erewrite !buildProtocol_run by reflexivity. simpl.
    repeat split.
Qed.

End Started.

Lemma buildProtocol_public_keys_witness :
  exists t,
    fst (buildProtocol Sample.isFixedGroup Sample.fresh_transport "peer"
           (snd (startFactory mismatched_loaders new_factory)))
    = Ret t /\
    supportedPublicKeys t = ["ssh-ed25519"].
Proof.
  destruct (buildProtocol_public_keys
              Sample.isFixedGroup Sample.fresh_transport
              mismatched_loaders new_factory
              (snd (startFactory mismatched_loaders new_factory)) "peer"
              eq_refl)
    as (priv & t & s'' & Hpriv & Hbuild & Hkeys & _).
  exists t. split.
  - now rewrite Hbuild.
  - rewrite Hkeys. injection Hpriv as <-. reflexivity.
Defined.

Lemma default_getPrimes_degrades_witness :
  exists s' t,
    startFactory (Sample.loaders PyNone) new_factory = (Ret tt, s') /\
    primes s' = Attr PyNone /\
    fst (buildProtocol Sample.isFixedGroup Sample.fresh_transport "peer" s')
    = Ret t /\
    supportedKeyExchanges t
    = ["diffie-hellman-group14-sha1"; "diffie-hellman-group1-sha1"].
Proof.
  destruct (default_getPrimes_degrades
              Sample.isFixedGroup Sample.fresh_transport
              (Sample.loaders PyNone) new_factory "peer"
              (PyObj Sample.ed25519_pub) (PyObj Sample.ed25519_priv)
              eq_refl eq_refl eq_refl eq_refl eq_refl eq_refl)
    as (s' & t & Hstart & Hp & Hbuild & Hkex & _).
  exists s', t. repeat split; try assumption.
Defined.

(** ** Choosing a modulus *)

Section Nearest.

Variable bits : Z.

Let dist (k : Z) : Z := Z.abs (k - bits).
Let nearer : Z -> Z -> bool := cmp_to_key (closer bits).

Lemma nearer_spec (x y : Z) : nearer x y = true <-> (dist x < dist y)%Z.
Proof.
  subst nearer dist. unfold cmp_to_key, closer, cmp. simpl.
  destruct (Z.ltb_spec (Z.abs (x - bits)) (Z.abs (y - bits)));
    [|destruct (Z.eqb_spec (Z.abs (x - bits)) (Z.abs (y - bits)))];
    simpl; split; intros; try lia; try discriminate; reflexivity.
Qed.

Lemma nearer_false (x y : Z) : nearer x y = false <-> (dist y <= dist x)%Z.
Proof.
  destruct (nearer x y) eqn:E.
  - apply nearer_spec in E. split; [discriminate|lia].
  - split; [intros _|reflexivity].
    destruct (Z.le_gt_cases (dist y) (dist x)) as [Hle|Hgt]; [exact Hle|].
    apply nearer_spec in Hgt. congruence.
Qed.

Lemma sort_snoc {A} (lt : A -> A -> bool) (l : list A) (x : A) :
  sort lt (l ++ [x]) = insort lt x (sort lt l).
Proof. unfold sort. now rewrite fold_left_app. Qed.

Lemma insort_permutation {A} (lt : A -> A -> bool) (x : A) (l : list A) :
  forall y, In y (insort lt x l) <-> y = x \/ In y l.
Proof.
  induction l as [|e l IH]; intros y; simpl.
  - intuition.
  - destruct (lt x e); simpl; [intuition|]. rewrite IH. intuition.
Qed.

(** The sort keeps its elements. *)
Lemma sort_In {A} (lt : A -> A -> bool) (l : list A) :
  forall y, In y (sort lt l) <-> In y l.
Proof.
  induction l as [|x l IH] using rev_ind; intros y.
  - reflexivity.
  - rewrite sort_snoc, insort_permutation, in_app_iff, IH. simpl.
    intuition.
Qed.

(** The sort orders by distance to [bits]. *)
Lemma insort_sorted (x : Z) (l : list Z) :
  StronglySorted (fun a b => (dist a <= dist b)%Z) l ->
  StronglySorted (fun a b => (dist a <= dist b)%Z) (insort nearer x l).
Proof.
  induction 1 as [|e l Hs IH Hall]; simpl.
  - repeat constructor.
  - destruct (nearer x e) eqn:E.
    + apply nearer_spec in E. constructor; [now constructor|].
      constructor; [lia|].
      eapply Forall_impl; [|exact Hall]. simpl. intros; lia.
    + apply nearer_false in E. constructor; [exact IH|].
      apply Forall_forall. intros y Hy.
      apply insort_permutation in Hy as [->|Hy]; [exact E|].
      rewrite Forall_forall in Hall. now apply Hall.
Qed.

Lemma sort_sorted (l : list Z) :
  StronglySorted (fun a b => (dist a <= dist b)%Z) (sort nearer l).
Proof.
  induction l as [|x l IH] using rev_ind.
  - constructor.
  - rewrite sort_snoc. now apply insort_sorted.
Qed.

(** The head of the sorted key list is the first key, in the original
    order, among those nearest to [bits]: every key before it is strictly
    farther, every key after it is at least as far. *)
Lemma sort_head (l : list Z) :
  l <> [] ->
  exists pre b post,
    l = (pre ++ b :: post)%list /\
    item0 (sort nearer l) = Ret b /\
    Forall (fun k => (dist b < dist k)%Z) pre /\
    Forall (fun k => (dist b <= dist k)%Z) post.
Proof.
  induction l as [|x l IH] using rev_ind; [congruence|]. intros _.
  rewrite sort_snoc. destruct l as [|y l'].
  - exists [], x, []. simpl. repeat split; constructor.
  - destruct IH as (pre & b & post & El & Hhead & Hpre & Hpost);
      [discriminate|].
    destruct (sort nearer (y :: l')) as [|h rest] eqn:Es;
      [discriminate|].
    simpl in Hhead. injection Hhead as ->. cbn [insort].
    destruct (nearer x b) eqn:E.
    + apply nearer_spec in E.
      exists (y :: l'), x, []. simpl. repeat split; [|constructor].
      rewrite El. apply Forall_app. split.
      * eapply Forall_impl; [|exact Hpre]. simpl. intros; lia.
      * constructor; [exact E|].
        eapply Forall_impl; [|exact Hpost]. simpl. intros; lia.
    + apply nearer_false in E.
      exists pre, b, (post ++ [x])%list. rewrite El.
      rewrite <- app_assoc. simpl. repeat split; [exact Hpre|].
      apply Forall_app. split; [exact Hpost|]. now repeat constructor.
Qed.

End Nearest.

Lemma getitem_first {V : Type} (pre post : dict Z V) (b : Z) (v : V) :
  Forall (fun kv => fst kv <> b) pre ->
  getitem (pre ++ (b, v) :: post)%list b = Ret v.
Proof.
  unfold getitem. induction 1 as [|kv pre Hkv _ IH]; simpl.
  - now rewrite Z.eqb_refl.
  - destruct (Z.eqb_spec (fst kv) b); [contradiction|exact IH].
Qed.

(** The two look-ups of [getDHPrime] on a non-empty repository. *)
Lemma realBits_nearest (bits : Z) (d : dict Z (list DHGroup)) :
  d <> [] ->
  exists b groups,
    nearest_first bits d b groups /\
    item0 (sort (cmp_to_key (closer bits)) (keys d)) = Ret b /\
    getitem d b = Ret groups.
Proof.
  intros Hne.
  destruct (sort_head bits (keys d))
    as (pre & b & post & Ekeys & Hhead & Hpre & Hpost).
  { destruct d; [congruence|discriminate]. }
  unfold keys in Ekeys.
  apply map_eq_app in Ekeys as (d1 & d2 & -> & <- & E2).
  apply map_eq_cons in E2 as ([b' groups] & d2' & -> & Eb & <-).
  simpl in Eb. subst b'.
  apply (proj1 (Forall_map fst
                  (fun k => (Z.abs (b - bits) < Z.abs (k - bits))%Z) d1))
    in Hpre.
  apply (proj1 (Forall_map fst
                  (fun k => (Z.abs (b - bits) <= Z.abs (k - bits))%Z) d2'))
    in Hpost.
  exists b, groups. split; [|split].
  - exists d1, d2'. repeat split; assumption.
  - exact Hhead.
  - apply getitem_first. eapply Forall_impl; [|exact Hpre].
    simpl. intros kv Hlt Heq. rewrite Heq in Hlt. lia.
Qed.

Lemma choice_In {A : Type} (randbelow : nat -> nat) (seq : list A) :
  randbelow_ok randbelow ->
  seq <> [] ->
  exists x, In x seq /\ choice randbelow seq = Ret x.
Proof.
  intros Hrb Hne. destruct seq as [|a seq]; [congruence|].
  unfold choice.
  destruct (nth_error (a :: seq) (randbelow (List.length (a :: seq))))
    as [x|] eqn:E.
  - exists x. split; [now apply nth_error_In in E|reflexivity].
  - apply nth_error_None in E.
    specialize (Hrb (List.length (a :: seq))). simpl in *. lia.
Qed.

Lemma getDHPrime_run (randbelow : nat -> nat) (bits : Z) (s : SSHFactory)
      d b groups :
  primes s = Attr (PyObj d) ->
  item0 (sort (cmp_to_key (closer bits)) (keys d)) = Ret b ->
  getitem d b = Ret groups ->
  getDHPrime randbelow bits s = (choice randbelow groups, s).
Proof.
  intros Hp Hb Hg. run. rewrite Hp. simpl. rewrite Hb. simpl.
  rewrite Hg. simpl. reflexivity.
Qed.

(** ** C3: the nearest bit length, first among ties *)

(** C3.  On a non-empty repository [getDHPrime] draws its result from the
    list stored under one bit length [b], fixed by the repository and the
    target alone: [b] minimises the distance to [bits] and, among the bit
    lengths at that distance, is the first in the repository's enumeration
    order.  The call leaves the factory as it was, so a repeated call draws
    from the same list whatever the random source does; and when that list
    is non-empty the call returns one of its groups. *)
Theorem getDHPrime_nearest_first (bits : Z) (s : SSHFactory) d :
  primes s = Attr (PyObj d) ->
  d <> [] ->
  exists b groups,
    nearest_first bits d b groups /\
    (forall randbelow,
        getDHPrime randbelow bits s = (choice randbelow groups, s)) /\
    (forall randbelow,
        randbelow_ok randbelow -> groups <> [] ->
        exists g, In g groups /\
                  fst (getDHPrime randbelow bits s) = Ret g).
Proof.
  intros Hp Hne.
  destruct (realBits_nearest bits d Hne) as (b & groups & Hnear & Hb & Hg).
  exists b, groups. split; [exact Hnear|]. split.
  - intros rb. now apply getDHPrime_run with (d := d) (b := b).
  - intros rb Hrb Hgroups.
    destruct (choice_In rb groups Hrb Hgroups) as (g & Hin & Hc).
    exists g. split; [exact Hin|].
    now rewrite (getDHPrime_run rb bits s d b groups), Hc.
Qed.

(** ** C4: the selection is safe on a well-formed repository *)

(** C4.  When [primes] is a non-empty dict in which every bit length has at
    least one group, [getDHPrime] raises nothing: the head of the sorted key
    list exists, it is the bit length nearest to [bits] (the first such in
    enumeration order), the look-up under it succeeds, and the result is a
    member of the list stored under that winning bit length.  The factory
    is left unchanged. *)
Theorem getDHPrime_safe (randbelow : nat -> nat) (bits : Z)
        (s : SSHFactory) d :
  primes s = Attr (PyObj d) ->
  d <> [] ->
  every_length_has_a_group d ->
  randbelow_ok randbelow ->
  exists realBits groups g,
    nearest_first bits d realBits groups /\
    item0 (sort (cmp_to_key (closer bits)) (keys d)) = Ret realBits /\
    getitem d realBits = Ret groups /\
    In g groups /\
    getDHPrime randbelow bits s = (Ret g, s).
Proof.
  intros Hp Hne Hwf Hrb.
  destruct (realBits_nearest bits d Hne) as (b & groups & Hnear & Hb & Hg).
  assert (Hgroups : groups <> []).
  { destruct Hnear as (pre & post & -> & _).
    apply Forall_app in Hwf as [_ Hwf].
    inversion Hwf as [|? ? Hhd _]; subst. exact Hhd. }
  destruct (choice_In randbelow groups Hrb Hgroups) as (g & Hin & Hc).
  exists b, groups, g. repeat split; try assumption.
  now rewrite (getDHPrime_run randbelow bits s d b groups), Hc.
Qed.

Lemma last_index_ok : randbelow_ok last_index.
Proof. intros n Hn. unfold last_index. lia. Qed.

Lemma getDHPrime_nearest_first_witness :
  exists b groups,
    nearest_first 2048 [(3072, [(2, 3067)]);
                        (1024, [(2, 1019); (5, 1021)])]%Z b groups /\
    (forall randbelow,
        getDHPrime randbelow 2048 tied_factory
        = (choice randbelow groups, tied_factory)) /\
    (forall randbelow,
        randbelow_ok randbelow -> groups <> [] ->
        exists g, In g groups /\
                  fst (getDHPrime randbelow 2048 tied_factory) = Ret g).
Proof.
  apply (getDHPrime_nearest_first 2048 tied_factory _ eq_refl).
  discriminate.
Defined.

Lemma getDHPrime_safe_witness :
  exists groups g,
    nearest_first 2000 Sample.moduli 2048 groups /\
    getitem Sample.moduli 2048%Z = Ret groups /\
    In g groups /\
    getDHPrime last_index 2000 seeded_factory = (Ret g, seeded_factory).
Proof.
  destruct (getDHPrime_safe last_index 2000 seeded_factory Sample.moduli
              eq_refl)
    as (realBits & groups & g & Hnear & Hhead & Hgroups & Hin & Hrun).
  - discriminate.
  - repeat constructor; discriminate.
  - exact last_index_ok.
  - vm_compute in Hhead. injection Hhead as <-.
    exists groups, g. repeat split; assumption.
Defined.

(** The tie of the example goes to the bit length enumerated first, in
    either enumeration order, and an exact or nearer match wins. *)
Example tie_3072_first :
  forall randbelow,
    randbelow_ok randbelow ->
    fst (getDHPrime randbelow 2048 tied_factory) = Ret (2, 3067)%Z.
Proof.
  intros rb Hrb. specialize (Hrb 1 ltac:(lia)). run.
  destruct (rb 1); [reflexivity|lia].
Qed.

Example nearest_of_three :
  item0 (sort (cmp_to_key (closer 2000)) [1024; 2048; 4096]%Z) = Ret 2048%Z
  /\ item0 (sort (cmp_to_key (closer 2048)) [1024; 3072]%Z) = Ret 1024%Z
  /\ item0 (sort (cmp_to_key (closer 2048)) [3072; 1024]%Z) = Ret 3072%Z.
Proof. repeat split. Qed.

(** ** Service routing *)

Lemma getitem_missing {V : Type} (d : dict string V) (name : string) :
  ~ In name (keys d) ->
  getitem d name = Raise (KeyError (KStr name)).
Proof.
  unfold getitem. induction d as [|[k v] d IH]; simpl; intros Hnot.
  - reflexivity.
  - destruct (String.eqb_spec k name) as [->|Hne]; [tauto|].
    apply IH. tauto.
Qed.

(** ** C5: who may have which service *)

(** C5.  [getService] hands out the entry of the service table when the
    name asked for is "ssh-userauth", whatever the identity state, or when
    the transport has an avatar; with the class's own table the entry for
    "ssh-userauth" is [SSHUserAuthServer].  A transport without an avatar
    asking for any other name gets [None].  The factory is unchanged in
    each case. *)
Theorem getService_resolve (s : SSHFactory) (t : SSHServerTransport)
        (name : string) :
  (forall cls,
      getitem (services s) name = Ret cls ->
      name = "ssh-userauth" \/ has_avatar t = true ->
      getService t name s = (Ret (PyObj cls), s)) /\
  (services s = default_services ->
   getService t "ssh-userauth" s = (Ret (PyObj SSHUserAuthServer), s)) /\
  (name <> "ssh-userauth" ->
   has_avatar t = false ->
   getService t name s = (Ret PyNone, s)).
Proof.
  split; [|split].
  - intros cls Hcls Hgate. run.
    assert (E : (name =? "ssh-userauth") || has_avatar t = true).
    { destruct Hgate as [-> | ->]; [reflexivity|apply orb_true_r]. }
    rewrite E, Hcls. reflexivity.
  - intros Htable. run. now rewrite Htable.
  - intros Hname Hanon. run.
    apply String.eqb_neq in Hname. now rewrite Hname, Hanon.
Qed.

Lemma getService_resolve_witness :
  getService (Sample.fresh_transport "peer") "ssh-userauth" new_factory
  = (Ret (PyObj SSHUserAuthServer), new_factory) /\
  getService authenticated_transport "ssh-connection" new_factory
  = (Ret (PyObj SSHConnection), new_factory) /\
  getService (Sample.fresh_transport "peer") "ssh-connection" new_factory
  = (Ret PyNone, new_factory).
Proof.
  split; [|split].
  - apply (proj1 (proj2 (getService_resolve new_factory
                           (Sample.fresh_transport "peer") "ssh-userauth"))).
    reflexivity.
  - apply (proj1 (getService_resolve new_factory authenticated_transport
                    "ssh-connection")).
    + reflexivity.
    + right. reflexivity.
  - apply (proj2 (proj2 (getService_resolve new_factory
                           (Sample.fresh_transport "peer")
                           "ssh-connection"))).
    + discriminate.
    + reflexivity.
Defined.

(** ** C6: a name the table does not know *)

(** C6 as stated, refuted at its own example: with an avatar present the
    request for "unknown-service" does not return [None]. *)
Lemma getService_unknown_not_none :
  fst (getService authenticated_transport "unknown-service" new_factory)
  <> Ret PyNone.
Proof. discriminate. Qed.

(** C6, amended.  For a transport with an avatar, asking for a name that is
    not a key of the service table raises [KeyError] carrying that name (the
    subscript [self.services[service]] fails); no value is returned.  The
    same holds for "ssh-userauth" when a table lacks it. *)
Theorem getService_unknown_raises (s : SSHFactory) (t : SSHServerTransport)
        (name : string) :
  name = "ssh-userauth" \/ has_avatar t = true ->
  ~ In name (keys (services s)) ->
  getService t name s = (Raise (KeyError (KStr name)), s).
Proof.
  intros Hgate Hnot. run.
  assert (E : (name =? "ssh-userauth") || has_avatar t = true).
  { destruct Hgate as [-> | ->]; [reflexivity|apply orb_true_r]. }
  rewrite E. now rewrite (getitem_missing _ _ Hnot).
Qed.

Lemma getService_unknown_raises_witness :
  getService authenticated_transport "unknown-service" new_factory
  = (Raise (KeyError (KStr "unknown-service")), new_factory).
Proof.
  apply (getService_unknown_raises new_factory authenticated_transport
           "unknown-service").
  - right. reflexivity.
  - simpl. intros [H|[H|[]]]; discriminate.
Defined.

(** ** C9: the loaders of the base class *)

(** C9 as stated, refuted: the three loaders of the base class do not all
    raise [NotImplementedError]; [getPrimes] returns. *)
Lemma base_loaders_not_all_unimplemented :
  ~ (raises_unimplemented (getPublicKeys base_loaders) /\
     raises_unimplemented (getPrivateKeys base_loaders) /\
     raises_unimplemented (getPrimes base_loaders)).
Proof. intros (_ & _ & msg & H). discriminate. Qed.

(** C9, amended.  Left as the base class defines them, the two key loaders
    raise [NotImplementedError], an exception other than whatever an
    overriding loader raises on an I/O failure, and [startFactory] passes it
    on from whichever key slot it has to load first; the moduli loader
    raises nothing and returns [None], and [startFactory] binds [primes]
    to it. *)
Theorem base_loaders_outcome :
  raises_unimplemented (getPublicKeys base_loaders) /\
  raises_unimplemented (getPrivateKeys base_loaders) /\
  getPrimes base_loaders = Ret PyNone /\
  (forall s, publicKeys s = Unset ->
             raises_unimplemented (fst (startFactory base_loaders s))) /\
  (forall s pub, publicKeys s = Attr pub -> privateKeys s = Unset ->
                 raises_unimplemented (fst (startFactory base_loaders s))) /\
  (forall s pub priv,
      publicKeys s = Attr pub -> privateKeys s = Attr priv ->
      truth pub = true -> truth priv = true -> primes s = Unset ->
      fst (startFactory base_loaders s) = Ret tt /\
      primes (snd (startFactory base_loaders s)) = Attr PyNone).
Proof.
  split; [now eexists|]. split; [now eexists|]. split; [reflexivity|].
  split; [|split].
  - intros [pk vk pr sv tr] Hpub. simpl in Hpub. subst. now eexists.
  - intros [pk vk pr sv tr] pub Hpub Hpriv. simpl in Hpub, Hpriv. subst.
    now eexists.
  - intros s pub priv Hpub Hpriv Tpub Tpriv Hp.
    rewrite (startFactory_ok base_loaders s pub priv PyNone);
      rewrite ?Hpub, ?Hpriv, ?Hp; auto.
Qed.

Lemma base_loaders_outcome_witness :
  raises_unimplemented (fst (startFactory base_loaders new_factory)) /\
  primes (snd (startFactory base_loaders
                 {| publicKeys := Attr (PyObj Sample.ed25519_pub);
                    privateKeys := Attr (PyObj Sample.ed25519_priv);
                    primes := Unset;
                    services := default_services;
                    trace := [] |}))
  = Attr PyNone.
Proof.
  destruct base_loaders_outcome as (_ & _ & _ & Hpub & _ & Hprimes).
  split.
  - apply Hpub. reflexivity.
  - apply (Hprimes _ (PyObj Sample.ed25519_pub) (PyObj Sample.ed25519_priv));
      reflexivity.
Defined.

(** * Further properties of the factory *)

(** ** Loaders that fail *)

(** X1.  When [publicKeys] is unset and the public-key loader raises,
    [startFactory] raises that very exception after that single call: no
    slot is bound, and neither the private-key loader nor the moduli loader
    is called. *)
Theorem startFactory_public_loader_fails (L : Loaders) (s : SSHFactory) e :
  publicKeys s = Unset ->
  getPublicKeys L = Raise e ->
  fst (startFactory L s) = Raise e /\
  publicKeys (snd (startFactory L s)) = Unset /\
  privateKeys (snd (startFactory L s)) = privateKeys s /\
  primes (snd (startFactory L s)) = primes s /\
  trace (snd (startFactory L s)) = (trace s ++ [CallGetPublicKeys])%list.
Proof.
  intros Hunset Hload. destruct s as [pk vk pr sv tr].
  simpl in Hunset. subst pk. run. rewrite Hload. simpl. repeat split.
Qed.

Lemma startFactory_public_loader_fails_witness :
  fst (startFactory base_loaders new_factory)
  = Raise (NotImplementedError "getPublicKeys unimplemented") /\
  trace (snd (startFactory base_loaders new_factory)) = [CallGetPublicKeys].
Proof.
  destruct (startFactory_public_loader_fails base_loaders new_factory _
              eq_refl eq_refl) as (Hres & _ & _ & _ & Htrace).
  split; assumption.
Defined.

(** X2.  When the public keys are obtained, [privateKeys] is unset and the
    private-key loader raises, [startFactory] raises that exception, also
    when the public mapping is empty (the host-key check comes after both
    loads).  The public keys stay bound, [privateKeys] and [primes] are as
    before, and the moduli loader is not called. *)
Theorem startFactory_private_loader_fails
        (L : Loaders) (s : SSHFactory) pub e :
  loaded (publicKeys s) (getPublicKeys L) = Ret pub ->
  privateKeys s = Unset ->
  getPrivateKeys L = Raise e ->
  fst (startFactory L s) = Raise e /\
  publicKeys (snd (startFactory L s)) = Attr pub /\
  privateKeys (snd (startFactory L s)) = Unset /\
  primes (snd (startFactory L s)) = primes s /\
  trace (snd (startFactory L s))
  = (trace s ++ load_event (publicKeys s) CallGetPublicKeys
             ++ [CallGetPrivateKeys])%list.
Proof.
  intros Hpub Hunset Hload. destruct s as [pk vk pr sv tr].
  simpl in Hunset. subst vk.
  destruct pk; simpl in Hpub; run; rewrite ?Hpub, Hload; simpl;
    try (injection Hpub as ->); rewrite <- ?app_assoc; repeat split.
Qed.

Lemma startFactory_private_loader_fails_witness :
  fst (startFactory unreadable_private_loaders new_factory)
  = Raise (OtherError "IOError: ssh_host_ed25519_key") /\
  publicKeys (snd (startFactory unreadable_private_loaders new_factory))
  = Attr (PyObj Sample.ed25519_pub).
Proof.
  destruct (startFactory_private_loader_fails
              unreadable_private_loaders new_factory _ _
              eq_refl eq_refl eq_refl) as (Hres & Hpub & _).
  split; assumption.
Defined.

(** X3.  When the host keys pass the check, [primes] is unset and the
    moduli loader raises, [startFactory] raises that exception with both
    key slots bound and [primes] still unset; [buildProtocol] on the state
    left behind raises [AttributeError] for [primes] and builds nothing. *)
Theorem startFactory_primes_loader_fails
        (L : Loaders) (s : SSHFactory) pub priv e :
  loaded (publicKeys s) (getPublicKeys L) = Ret pub ->
  loaded (privateKeys s) (getPrivateKeys L) = Ret priv ->
  truth pub = true ->
  truth priv = true ->
  primes s = Unset ->
  getPrimes L = Raise e ->
  fst (startFactory L s) = Raise e /\
  publicKeys (snd (startFactory L s)) = Attr pub /\
  privateKeys (snd (startFactory L s)) = Attr priv /\
  primes (snd (startFactory L s)) = Unset /\
  forall isFixedGroup Factory_buildProtocol addr,
    buildProtocol isFixedGroup Factory_buildProtocol addr
      (snd (startFactory L s))
    = (Raise (AttributeError "primes"), snd (startFactory L s)).
Proof.
  intros Hpub Hpriv Tpub Tpriv Hunset Hload.
  destruct (truth_true_inv priv Tpriv) as (kv & d & ->).
  destruct s as [pk vk pr sv tr]. simpl in Hunset. subst pr.
  destruct pk, vk; simpl in Hpub, Hpriv; run;
    rewrite ?Hpub, ?Hpriv; simpl;
    try (injection Hpub as ->); try (injection Hpriv as ->);
    rewrite ?Tpub; simpl; rewrite Hload; simpl; repeat split.
Qed.

Lemma startFactory_primes_loader_fails_witness :
  fst (startFactory unreadable_moduli_loaders new_factory)
  = Raise (OtherError "IOError: moduli") /\
  fst (buildProtocol Sample.isFixedGroup Sample.fresh_transport "peer"
         (snd (startFactory unreadable_moduli_loaders new_factory)))
  = Raise (AttributeError "primes").
Proof.
  destruct (startFactory_primes_loader_fails
              unreadable_moduli_loaders new_factory _ _ _
              eq_refl eq_refl eq_refl eq_refl eq_refl eq_refl)
    as (Hres & _ & _ & _ & Hbuild).
  split; [exact Hres|]. now rewrite Hbuild.
Defined.

(** ** Start-up as a whole *)

(** X4.  A failed host-key check sticks.  Once [startFactory] has raised
    "no host keys" with the two key slots bound, calling it again, with
    whatever loaders, raises the same error without calling any loader and
    without changing the factory: the empty mapping is never reloaded. *)
Theorem startFactory_failure_sticks
        (L L' : Loaders) (s : SSHFactory) pub priv :
  loaded (publicKeys s) (getPublicKeys L) = Ret pub ->
  loaded (privateKeys s) (getPrivateKeys L) = Ret priv ->
  truth pub && truth priv = false ->
  startFactory L' (snd (startFactory L s))
  = (Raise no_host_keys, snd (startFactory L s)).
Proof.
  intros Hpub Hpriv T.
  rewrite (startFactory_no_keys L s pub priv Hpub Hpriv T). simpl.
  match goal with
  | |- startFactory L' ?s1 = _ =>
      rewrite (startFactory_no_keys L' s1 pub priv eq_refl eq_refl T)
  end.
  simpl. now rewrite !app_nil_r.
Qed.

Lemma startFactory_failure_sticks_witness :
  startFactory (Sample.loaders PyNone)
    (snd (startFactory half_keyed_loaders new_factory))
  = (Raise no_host_keys, snd (startFactory half_keyed_loaders new_factory)).
Proof.
  apply (startFactory_failure_sticks half_keyed_loaders
           (Sample.loaders PyNone) new_factory
           (PyObj Sample.ed25519_pub) (PyObj [])); reflexivity.
Defined.

(** X5.  Whatever the state and the loaders, one [startFactory] calls each
    loader at most once and in the order public keys, private keys, moduli;
    it records nothing else: the events it appends to the trace form a
    subsequence of those three calls. *)
Theorem startFactory_loader_order (L : Loaders) (s : SSHFactory) :
  exists evs,
    trace (snd (startFactory L s)) = (trace s ++ evs)%list /\
    Subseq evs [CallGetPublicKeys; CallGetPrivateKeys; CallGetPrimes].
Proof.
  destruct s as [pk vk pr sv tr], L as [lp lv lq].
  destruct pk, vk, pr; run; crunch; rewrite <- ?app_assoc; simpl;
    (eexists; split;
     [ first [ reflexivity | symmetry; apply app_nil_r ]
     | auto 8 using @Subseq_nil, @Subseq_skip, @Subseq_keep ]).
Qed.

(** X6.  [startFactory] returns normally exactly when the key mappings it
    ends up with are both non-empty and the moduli are obtained: each slot
    is pre-set or its loader returns, and both key mappings are truthy. *)
Theorem startFactory_returns_iff (L : Loaders) (s : SSHFactory) :
  fst (startFactory L s) = Ret tt <->
  exists pub priv p,
    loaded (publicKeys s) (getPublicKeys L) = Ret pub /\
    loaded (privateKeys s) (getPrivateKeys L) = Ret priv /\
    loaded (primes s) (getPrimes L) = Ret p /\
    truth pub = true /\ truth priv = true.
Proof.
  split.
  - intros Hres.
    destruct (startFactory L s) as [r s'] eqn:Hrun. simpl in Hres. subst r.
    destruct (startFactory_started L s s' Hrun)
      as (pub & priv & p & Hpub & Hpriv & Hp & Tpub & Tpriv & _).
    exists pub, priv, p. repeat split; assumption.
  - intros (pub & priv & p & Hpub & Hpriv & Hp & Tpub & Tpriv).
    now rewrite (startFactory_ok L s pub priv p).
Qed.

Section AfterFailure.

Variable isFixedGroup : string -> bool.
Variable Factory_buildProtocol : string -> SSHServerTransport.

(** X7.  After a failed host-key check on a factory whose [primes] slot
    was unset, [buildProtocol] raises [AttributeError] and builds no
    transport: the check stops before the moduli are loaded, and
    [buildProtocol] needs that slot (or fails earlier, on private keys that
    are [None]). *)
Theorem buildProtocol_after_failed_start
        (L : Loaders) (s : SSHFactory) (addr : string) pub priv :
  loaded (publicKeys s) (getPublicKeys L) = Ret pub ->
  loaded (privateKeys s) (getPrivateKeys L) = Ret priv ->
  truth pub && truth priv = false ->
  primes s = Unset ->
  exists name,
    buildProtocol isFixedGroup Factory_buildProtocol addr
      (snd (startFactory L s))
    = (Raise (AttributeError name), snd (startFactory L s)).
Proof.
  intros Hpub Hpriv T Hunset.
  rewrite (startFactory_no_keys L s pub priv Hpub Hpriv T). simpl.
  rewrite Hunset. destruct priv as [|d]; run; eexists; reflexivity.
Qed.

End AfterFailure.

Lemma buildProtocol_after_failed_start_witness :
  exists name,
    fst (buildProtocol Sample.isFixedGroup Sample.fresh_transport "peer"
           (snd (startFactory half_keyed_loaders new_factory)))
    = Raise (AttributeError name).
Proof.
  destruct (buildProtocol_after_failed_start
              Sample.isFixedGroup Sample.fresh_transport
              half_keyed_loaders new_factory "peer"
              (PyObj Sample.ed25519_pub) (PyObj [])
              eq_refl eq_refl eq_refl eq_refl) as (name & Hbuild).
  exists name. now rewrite Hbuild.
Defined.

Lemma startFactory_returns_iff_witness :
  fst (startFactory (Sample.loaders (PyObj Sample.moduli)) new_factory)
  = Ret tt.
Proof.
  apply (proj2 (startFactory_returns_iff
                  (Sample.loaders (PyObj Sample.moduli)) new_factory)).
  exists (PyObj Sample.ed25519_pub), (PyObj Sample.ed25519_priv),
    (PyObj Sample.moduli).
  repeat split.
Defined.

(** ** Building connections *)

Lemma Subseq_refl {A : Type} (l : list A) : Subseq l l.
Proof. induction l; now constructor. Qed.

Lemma filter_all {A : Type} (f : A -> bool) (l : list A) :
  Forall (fun x => f x = true) l -> filter f l = l.
Proof.
  induction 1 as [|x l Hx _ IH]; simpl; [reflexivity|].
  now rewrite Hx, IH.
Qed.

Section Connections.

Variable isFixedGroup : string -> bool.
Variable Factory_buildProtocol : string -> SSHServerTransport.

Let build := buildProtocol isFixedGroup Factory_buildProtocol.

(** What a build that returns tells about the factory. *)
Lemma buildProtocol_ret_inv (addr : string) (s s' : SSHFactory) t :
  build addr s = (Ret t, s') ->
  exists priv p, privateKeys s = Attr (PyObj priv) /\ primes s = Attr p.
Proof.
  subst build. destruct s as [pk vk pr sv tr].
  destruct vk as [|[|priv]]; run; try discriminate.
  destruct pr as [|p]; try discriminate.
  intros _. now exists priv, p.
Qed.

(** X8.  [buildProtocol] never rebinds a slot of the factory.  A build that
    raises leaves the factory exactly as it was; a build that returns
    records the moduli notice, once, when [primes] is [None] or empty, and
    records nothing when moduli are present. *)
Theorem buildProtocol_frame (addr : string) (s : SSHFactory) :
  publicKeys (snd (build addr s)) = publicKeys s /\
  privateKeys (snd (build addr s)) = privateKeys s /\
  primes (snd (build addr s)) = primes s /\
  services (snd (build addr s)) = services s /\
  (is_ret (fst (build addr s)) = false -> snd (build addr s) = s) /\
  (forall p, is_ret (fst (build addr s)) = true -> primes s = Attr p ->
             trace (snd (build addr s))
             = (trace s ++ if truth p then [] else [moduli_notice])%list).
Proof.
  subst build. destruct s as [pk vk pr sv tr].
  destruct vk as [|[|priv]], pr as [|p]; run;
    try (repeat split; intros; try discriminate; reflexivity).
  destruct (truth p) eqn:Tp; simpl; repeat split; try discriminate;
    intros p' _ Hp'; injection Hp' as <-; rewrite Tp;
    [now rewrite app_nil_r|reflexivity].
Qed.

(** X9.  Builds do not influence one another: the outcome of building for
    one peer after having built for another is the outcome of building for
    it straight away, in every state of the factory. *)
Theorem buildProtocol_independent (addr1 addr2 : string) (s : SSHFactory) :
  fst (build addr2 (snd (build addr1 s))) = fst (build addr2 s).
Proof.
  subst build. destruct s as [pk vk pr sv tr].
  destruct vk as [|[|priv]], pr as [|p]; run; try reflexivity.
  destruct (truth p) eqn:Tp; simpl; now rewrite ?Tp.
Qed.

(** X10.  A built transport never advertises a key exchange the fresh
    transport did not support: its list is an order-preserving subsequence
    of the supported one, and its avatar slot is the fresh transport's.  If
    every supported algorithm is fixed-group, the list is the supported one
    whether or not moduli are present. *)
Theorem buildProtocol_never_adds (addr : string) (s s' : SSHFactory) t :
  build addr s = (Ret t, s') ->
  Subseq (supportedKeyExchanges t)
         (supportedKeyExchanges (Factory_buildProtocol addr)) /\
  avatar t = avatar (Factory_buildProtocol addr) /\
  (Forall (fun name => isFixedGroup name = true)
          (supportedKeyExchanges (Factory_buildProtocol addr)) ->
   supportedKeyExchanges t
   = supportedKeyExchanges (Factory_buildProtocol addr)).
Proof.
  intros Hbuild.
  destruct (buildProtocol_ret_inv addr s s' t Hbuild)
    as (priv & p & Hpriv & Hp).
  subst build.
  rewrite (buildProtocol_run _ _ addr s priv p Hpriv Hp) in Hbuild.
  injection Hbuild as <- _. simpl.
  destruct (truth p); repeat split.
  - apply Subseq_refl.
  - apply (filter_selects isFixedGroup).
  - intros Hall. now apply filter_all.
Qed.

End Connections.

Lemma buildProtocol_frame_witness :
  trace (snd (buildProtocol Sample.isFixedGroup Sample.fresh_transport
                "peer" seeded_factory)) = [] /\
  trace (snd (buildProtocol Sample.isFixedGroup Sample.fresh_transport
                "peer"
                (snd (startFactory (Sample.loaders PyNone) new_factory))))
  = [CallGetPublicKeys; CallGetPrivateKeys; CallGetPrimes; moduli_notice].
Proof.
  split.
  - apply (proj2 (proj2 (proj2 (proj2 (proj2
             (buildProtocol_frame Sample.isFixedGroup Sample.fresh_transport
                "peer" seeded_factory))))) (PyObj Sample.moduli));
      reflexivity.
  - apply (proj2 (proj2 (proj2 (proj2 (proj2
             (buildProtocol_frame Sample.isFixedGroup Sample.fresh_transport
                "peer"
                (snd (startFactory (Sample.loaders PyNone)
                        new_factory))))))) PyNone);
      reflexivity.
Defined.

Lemma buildProtocol_never_adds_witness :
  exists t,
    fst (buildProtocol Sample.isFixedGroup fixed_only_transport "peer"
           (snd (startFactory (Sample.loaders PyNone) new_factory)))
    = Ret t /\
    supportedKeyExchanges t
    = ["diffie-hellman-group14-sha1"; "diffie-hellman-group1-sha1"].
Proof.
  eexists. split; [reflexivity|].
  apply (buildProtocol_never_adds Sample.isFixedGroup fixed_only_transport
           "peer" (snd (startFactory (Sample.loaders PyNone) new_factory))
           _ _ eq_refl).
  repeat constructor.
Defined.

(** ** Choosing a modulus: the edges *)

Lemma app_cons_cases {A : Type} (pre pre' post post' : list A) (x y : A) :
  (pre ++ x :: post)%list = (pre' ++ y :: post')%list ->
  (pre = pre' /\ x = y /\ post = post') \/ In x pre' \/ In y pre.
Proof.
  revert pre'. induction pre as [|a pre IH]; intros [|b pre'] E;
    simpl in E; injection E as Ehd Etl.
  - left. now subst.
  - right. left. left. now symmetry.
  - right. right. left. exact Ehd.
  - destruct (IH pre' Etl) as [(-> & -> & ->)|[Hin|Hin]].
    + left. now subst.
    + right. left. now right.
    + right. right. now right.
Qed.

(** The winning entry is at least as near as every entry. *)
Lemma nearest_first_min (bits : Z) d b groups :
  nearest_first bits d b groups ->
  forall kv, In kv d -> (Z.abs (b - bits) <= Z.abs (fst kv - bits))%Z.
Proof.
  intros (pre & post & -> & Hpre & Hpost) kv Hin.
  rewrite Forall_forall in Hpre, Hpost.
  apply in_app_or in Hin as [Hin|[<-|Hin]].
  - specialize (Hpre kv Hin). simpl in Hpre. lia.
  - simpl. lia.
  - now apply Hpost.
Qed.

(** There is one winning entry. *)
Lemma nearest_first_unique (bits : Z) d b groups b' groups' :
  nearest_first bits d b groups ->
  nearest_first bits d b' groups' ->
  b = b' /\ groups = groups'.
Proof.
  intros Hn Hn'.
  pose proof (nearest_first_min bits d b groups Hn) as Hmin.
  pose proof (nearest_first_min bits d b' groups' Hn') as Hmin'.
  destruct Hn as (pre & post & E & Hpre & _).
  destruct Hn' as (pre' & post' & E' & Hpre' & _).
  rewrite E in E'.
  rewrite Forall_forall in Hpre, Hpre'.
  destruct (app_cons_cases _ _ _ _ _ _ E') as [(_ & Heq & _)|[Hin|Hin]].
  - now injection Heq.
  - exfalso. specialize (Hpre' _ Hin). simpl in Hpre'.
    assert (Hd : In (b', groups') d)
      by (rewrite E, E'; apply in_or_app; right; now left).
    specialize (Hmin _ Hd). simpl in Hmin. lia.
  - exfalso. specialize (Hpre _ Hin). simpl in Hpre.
    assert (Hd : In (b, groups) d)
      by (rewrite E; apply in_or_app; right; now left).
    specialize (Hmin' _ Hd). simpl in Hmin'. lia.
Qed.

(** X11.  How [getDHPrime] fails, each time leaving the factory unchanged:
    with [AttributeError] when [primes] is unset or [None]; with
    [IndexError] when the repository is an empty dict; and with
    [IndexError] when the list stored under the winning bit length is
    empty, whatever the other bit lengths hold. *)
Theorem getDHPrime_failures (randbelow : nat -> nat) (bits : Z)
        (s : SSHFactory) :
  (primes s = Unset ->
   getDHPrime randbelow bits s = (Raise (AttributeError "primes"), s)) /\
  (primes s = Attr PyNone ->
   getDHPrime randbelow bits s = (Raise (AttributeError "keys"), s)) /\
  (primes s = Attr (PyObj []) ->
   getDHPrime randbelow bits s
   = (Raise (IndexError "list index out of range"), s)) /\
  (forall d b,
      primes s = Attr (PyObj d) ->
      nearest_first bits d b [] ->
      getDHPrime randbelow bits s
      = (Raise (IndexError "Cannot choose from an empty sequence"), s)).
Proof.
  split; [|split; [|split]].
  - intros Hp. run. now rewrite Hp.
  - intros Hp. run. now rewrite Hp.
  - intros Hp. run. now rewrite Hp.
  - intros d b Hp Hnear.
    assert (Hne : d <> []).
    { destruct Hnear as (pre & post & -> & _). now destruct pre. }
    destruct (realBits_nearest bits d Hne) as (b0 & g0 & Hnear0 & Hb & Hg).
    destruct (nearest_first_unique bits d b [] b0 g0 Hnear Hnear0)
      as [<- <-].
    now rewrite (getDHPrime_run randbelow bits s d b []).
Qed.

Lemma getDHPrime_failures_witness :
  getDHPrime last_index 2048 new_factory
  = (Raise (AttributeError "primes"), new_factory) /\
  getDHPrime last_index 4096 hollow_factory
  = (Raise (IndexError "Cannot choose from an empty sequence"),
     hollow_factory).
Proof.
  split.
  - apply (proj1 (getDHPrime_failures last_index 2048 new_factory)).
    reflexivity.
  - apply (proj2 (proj2 (proj2
             (getDHPrime_failures last_index 4096 hollow_factory)))
             [(2048%Z, [])] 2048%Z eq_refl).
    exists [], []. repeat split; constructor.
Defined.

(** X12.  An exact match wins.  When the repository has an entry for
    [bits] itself, [getDHPrime] draws from the list stored under [bits]. *)
Theorem getDHPrime_exact_match (bits : Z) (s : SSHFactory) d :
  primes s = Attr (PyObj d) ->
  In bits (keys d) ->
  exists groups,
    getitem d bits = Ret groups /\
    forall randbelow,
      getDHPrime randbelow bits s = (choice randbelow groups, s).
Proof.
  intros Hp Hin.
  assert (Hne : d <> []) by (destruct d; [contradiction|discriminate]).
  destruct (realBits_nearest bits d Hne) as (b & groups & Hnear & Hb & Hg).
  assert (Eb : b = bits).
  { unfold keys in Hin. apply in_map_iff in Hin as (kv & Hk & Hkv).
    pose proof (nearest_first_min bits d b groups Hnear kv Hkv) as Hmin.
    rewrite Hk in Hmin. lia. }
  subst b. exists groups. split; [exact Hg|].
  intros rb. now apply getDHPrime_run with (d := d) (b := bits).
Qed.

Lemma getDHPrime_exact_match_witness :
  exists groups,
    getitem Sample.moduli 3072%Z = Ret groups /\
    forall randbelow,
      getDHPrime randbelow 3072 seeded_factory
      = (choice randbelow groups, seeded_factory).
Proof.
  apply (getDHPrime_exact_match 3072 seeded_factory Sample.moduli eq_refl).
  simpl. tauto.
Defined.

(** ** Service routing: what can be handed out *)

Lemma getitem_In {V : Type} (d : dict string V) (name : string) (v : V) :
  getitem d name = Ret v -> In (name, v) d.
Proof.
  unfold getitem.
  destruct (find (fun kv => keqb (fst kv) name) d) as [[k v']|] eqn:E;
    [|discriminate].
  intros Hv. injection Hv as <-.
  apply find_some in E as [Hin Hk]. simpl in Hk.
  apply String.eqb_eq in Hk. now subst k.
Qed.

Lemma getitem_present {V : Type} (d : dict string V) (name : string) :
  In name (keys d) -> exists v, getitem d name = Ret v.
Proof.
  unfold getitem, keys. induction d as [|[k v] d IH]; simpl; [tauto|].
  intros [->|Hin].
  - rewrite String.eqb_refl. now exists v.
  - destruct (String.eqb k name); [now exists v|now apply IH].
Qed.

(** What a returned class tells about the run of [getService]. *)
Lemma getService_ret_inv (s s' : SSHFactory) (t : SSHServerTransport)
      (name : string) (cls : ServiceClass) :
  getService t name s = (Ret (PyObj cls), s') ->
  s' = s /\
  getitem (services s) name = Ret cls /\
  (name =? "ssh-userauth") || has_avatar t = true.
Proof.
  run. destruct ((name =? "ssh-userauth") || has_avatar t); simpl;
    [|discriminate].
  destruct (getitem (services s) name) as [c|e]; simpl; [|discriminate].
  intros H. injection H as -> <-. repeat split.
Qed.

(** X13.  Whatever class [getService] returns is an entry of the service
    table under the requested name, and it is returned only to a request
    for "ssh-userauth" or from a transport with an avatar: a transport
    without one can obtain nothing but the authentication service.  The
    call leaves the factory unchanged. *)
Theorem getService_sound (s s' : SSHFactory) (t : SSHServerTransport)
        (name : string) (cls : ServiceClass) :
  getService t name s = (Ret (PyObj cls), s') ->
  s' = s /\
  In (name, cls) (services s) /\
  (name = "ssh-userauth" \/ has_avatar t = true).
Proof.
  intros Hrun.
  destruct (getService_ret_inv s s' t name cls Hrun) as (-> & Hcls & Hauth).
  split; [reflexivity|]. split.
  - now apply getitem_In.
  - apply orb_true_iff in Hauth as [Hname|Hav]; [left|right; exact Hav].
    now apply String.eqb_eq.
Qed.

Lemma getService_sound_witness :
  In ("ssh-connection", SSHConnection) (services new_factory) /\
  ("ssh-connection" = "ssh-userauth"
   \/ has_avatar authenticated_transport = true).
Proof.
  apply (getService_sound new_factory new_factory authenticated_transport
           "ssh-connection" SSHConnection eq_refl).
Defined.

(** X14.  [getService] returns a class exactly when the requested name is
    a key of the service table and the request is for "ssh-userauth" or
    comes from a transport with an avatar; known names never fail. *)
Theorem getService_returns_iff (s : SSHFactory) (t : SSHServerTransport)
        (name : string) :
  (exists cls, fst (getService t name s) = Ret (PyObj cls)) <->
  In name (keys (services s)) /\
  (name = "ssh-userauth" \/ has_avatar t = true).
Proof.
  split.
  - intros (cls & Hres).
    destruct (getService t name s) as [r s'] eqn:Hrun. simpl in Hres.
    subst r.
    destruct (getService_ret_inv s s' t name cls Hrun)
      as (_ & Hcls & Hauth).
    split.
    + unfold keys. apply in_map_iff. exists (name, cls).
      split; [reflexivity|now apply getitem_In].
    + apply orb_true_iff in Hauth as [Hname|Hav]; [left|right; exact Hav].
      now apply String.eqb_eq.
  - intros (Hin & Hauth).
    destruct (getitem_present _ _ Hin) as (cls & Hcls).
    exists cls. run.
    assert (E : (name =? "ssh-userauth") || has_avatar t = true).
    { destruct Hauth as [-> | ->]; [reflexivity|apply orb_true_r]. }
    now rewrite E, Hcls.
Qed.

Lemma getService_returns_iff_witness :
  exists cls,
    fst (getService (Sample.fresh_transport "peer") "ssh-userauth"
           new_factory) = Ret (PyObj cls).
Proof.
  apply (proj2 (getService_returns_iff new_factory
                  (Sample.fresh_transport "peer") "ssh-userauth")).
  split; [simpl; tauto|left; reflexivity].
Defined.
